(** * Work Tracker: recurrence, alert and mutation engines

    A shallow embedding of the tracker's engine code

      - [utils/recurrence.ts]    ([nextDueDate], [generateNextInstance],
                                  [checkAndGenerateRecurring]),
      - [utils/alertEngine.ts]   ([alertId], [computeAlerts]),
      - [store/taskStore.ts]     (the task store operations),
      - [store/projectStore.ts]  ([deleteProject]),
      - [components/ProjectDetailPanel.tsx] ([handleDelete]),

    together with the parts of JavaScript and of the date-fns library these
    functions call.

    Conventions of the model.
      - Numbers are integers ([Z]); the floating point range of JavaScript
        numbers and the +/-8.64e15 ms range of [Date] are outside the model.
      - The local time zone is UTC, without daylight saving: a calendar day
        has 86400000 ms.
      - A [Date] object is its time value: [Some ms], or [None] for
        "Invalid Date" (time value NaN).
      - Reading the clock ([new Date()], [Date.now()]) and drawing an
        identifier ([uuidv4()]) consume one element of an oracle carried by the
        world state; exceptions are explicit results. *)

From Stdlib Require Import ZArith List String Ascii Bool Lia DecimalString.
Import ListNotations.
Local Open Scope string_scope.
Local Open Scope Z_scope.
Set Warnings "-register-all".

(* ================================================================== *)
(** * JavaScript values and their rendering as text *)
(* ================================================================== *)

Module JS.

(** The runtime values a task field can hold. *)
Inductive Value : Type :=
| Undefined
| Str (s : string)
| Bool (b : bool)
| Num (n : Z)
| Obj
| Arr (elems : list Value).

Fixpoint join (sep : string) (l : list string) : string :=
  match l with
  | [] => ""
  | [x] => x
  | x :: rest => x ++ sep ++ join sep rest
  end.

Definition numberToString (n : Z) : string :=
  NilZero.string_of_int (Z.to_int n).

(** [String(v)]: objects print as [[object Object]]; an array joins its
    elements with commas, [undefined] elements printing as the empty
    string. *)
Fixpoint String_ (v : Value) : string :=
  match v with
  | Undefined => "undefined"
  | Str s => s
  | Bool true => "true"
  | Bool false => "false"
  | Num n => numberToString n
  | Obj => "[object Object]"
  | Arr elems =>
      join "," (map (fun e => match e with
                              | Undefined => ""
                              | _ => String_ e
                              end) elems)
  end.

(** [v ?? d] *)
Definition nullish (v d : Value) : Value :=
  match v with
  | Undefined => d
  | _ => v
  end.

(** Truthiness of a string: [if (s)]. *)
Definition truthy_string (s : string) : bool :=
  match s with
  | EmptyString => false
  | _ => true
  end.

(** [n || d] on numbers; [None] is [undefined]. *)
Definition or_number (n : option Z) (d : Z) : Z :=
  match n with
  | None => d
  | Some v => if v =? 0 then d else v
  end.

(** [String.prototype.padStart(len, "0")] *)
Definition padStart0 (len : nat) (s : string) : string :=
  let fix zeros (k : nat) : string :=
    match k with
    | O => ""
    | S k' => String "0" (zeros k')
    end in
  zeros (len - String.length s)%nat ++ s.

Inductive Exn : Type :=
| RangeError (msg : string).

End JS.

(* ================================================================== *)
(** * Calendar arithmetic and the date-fns functions in use *)
(* ================================================================== *)

Module DateFns.

Definition msPerDay : Z := 86400000.

(** A [Date] object: its time value in ms, [None] for Invalid Date. *)
Definition Date : Type := option Z.

Definition is_leap (y : Z) : bool :=
  (y mod 4 =? 0) && (negb (y mod 100 =? 0) || (y mod 400 =? 0)).

(** Days of month [m] (1..12) of year [y]. *)
Definition days_in_month (y m : Z) : Z :=
  if m =? 2 then (if is_leap y then 29 else 28)
  else if (m =? 4) || (m =? 6) || (m =? 9) || (m =? 11) then 30
  else 31.

(** Day number (days since 1970-01-01) of the proleptic Gregorian date
    [y]-[m]-[d], and its inverse. *)
Definition days_from_civil (y m d : Z) : Z :=
  let y' := if m <=? 2 then y - 1 else y in
  let era := y' / 400 in
  let yoe := y' - era * 400 in
  let mp := if 2 <? m then m - 3 else m + 9 in
  let doy := (153 * mp + 2) / 5 + d - 1 in
  let doe := yoe * 365 + yoe / 4 - yoe / 100 + doy in
  era * 146097 + doe - 719468.

Definition civil_from_days (z : Z) : Z * Z * Z :=
  let z' := z + 719468 in
  let era := z' / 146097 in
  let doe := z' - era * 146097 in
  let yoe := (doe - doe / 1460 + doe / 36524 - doe / 146096) / 365 in
  let doy := doe - (365 * yoe + yoe / 4 - yoe / 100) in
  let mp := (5 * doy + 2) / 153 in
  let d := doy - (153 * mp + 2) / 5 + 1 in
  let m := if mp <? 10 then mp + 3 else mp - 9 in
  let y := yoe + era * 400 in
  (if m <=? 2 then y + 1 else y, m, d).

Definition valid_civil (y m d : Z) : bool :=
  (1 <=? m) && (m <=? 12) && (1 <=? d) && (d <=? days_in_month y m).

(** Local day number of an instant, and the instant of a day's midnight. *)
Definition dayOf (ms : Z) : Z := ms / msPerDay.
Definition midnight (day : Z) : Z := day * msPerDay.

(** [date.setHours(0, 0, 0, 0)] *)
Definition setHours0 (d : Date) : Date :=
  option_map (fun ms => midnight (dayOf ms)) d.

Definition digit (c : ascii) : option Z :=
  let n := Z.of_N (N_of_ascii c) in
  if (48 <=? n) && (n <=? 57) then Some (n - 48) else None.

Definition num2 (a b : ascii) : option Z :=
  match digit a, digit b with
  | Some x, Some y => Some (10 * x + y)
  | _, _ => None
  end.

Definition num4 (a b c d : ascii) : option Z :=
  match num2 a b, num2 c d with
  | Some x, Some y => Some (100 * x + y)
  | _, _ => None
  end.

(** The year, month and day written in a string of the form
    [YYYY-MM-DD]. *)
Definition parseCivil (s : string) : option (Z * Z * Z) :=
  match s with
  | String y1 (String y2 (String y3 (String y4 (String "-"
      (String m1 (String m2 (String "-"
        (String d1 (String d2 EmptyString))))))))) =>
      match num4 y1 y2 y3 y4, num2 m1 m2, num2 d1 d2 with
      | Some y, Some m, Some d => Some (y, m, d)
      | _, _, _ => None
      end
  | _ => None
  end.

(** [parseISO] on the calendar-date form [YYYY-MM-DD], the form the tracker
    stores (HTML date inputs, and [format(next, 'yyyy-MM-dd')] below): the
    month and the day of the month are validated, and the result is local
    midnight of that day. Every other string is modelled as Invalid Date. *)
Definition parseISO (s : string) : Date :=
  match parseCivil s with
  | Some (y, m, d) =>
      if valid_civil y m d
      then Some (midnight (days_from_civil y m d))
      else None
  | None => None
  end.

(** [addLeadingZeros(n, len)] for [0 <= n] *)
Definition addLeadingZeros (n : Z) (len : nat) : string :=
  JS.padStart0 len (JS.numberToString n).

(** The [yyyy-MM-dd] rendering of a calendar date; the [y] token prints
    the year of the era, so year 0 prints as 0001. *)
Definition formatCivil (y m d : Z) : string :=
  let year := if 0 <? y then y else 1 - y in
  addLeadingZeros year 4 ++ "-" ++ addLeadingZeros m 2
    ++ "-" ++ addLeadingZeros d 2.

Definition format_day (day : Z) : string :=
  let '(y, m, d) := civil_from_days day in
  formatCivil y m d.

(** [format(date, 'yyyy-MM-dd')]: throws on an invalid date. *)
Definition format (d : Date) : JS.Exn + string :=
  match d with
  | None => inl (JS.RangeError "Invalid time value")
  | Some ms => inr (format_day (dayOf ms))
  end.

Definition addDays (d : Date) (amount : Z) : Date :=
  option_map (fun ms => ms + amount * msPerDay) d.

Definition addWeeks (d : Date) (amount : Z) : Date :=
  addDays d (amount * 7).

(** [addMonths]: the day of the month is kept unless the target month is
    shorter, in which case the result is the last day of the target month;
    the time of day is kept. *)
Definition addMonths (d : Date) (amount : Z) : Date :=
  match d with
  | None => None
  | Some ms =>
      if amount =? 0 then Some ms
      else
        let '(y, m, dayOfMonth) := civil_from_days (dayOf ms) in
        let timeOfDay := ms - midnight (dayOf ms) in
        let mi := y * 12 + (m - 1) + amount in
        let y' := mi / 12 in
        let m' := mi mod 12 + 1 in
        let daysInMonth := days_in_month y' m' in
        if daysInMonth <=? dayOfMonth
        then Some (midnight (days_from_civil y' m' daysInMonth) + timeOfDay)
        else Some (midnight (days_from_civil y' m' dayOfMonth) + timeOfDay)
  end.

Definition addQuarters (d : Date) (amount : Z) : Date :=
  addMonths d (amount * 3).

(** Comparisons of time values; any comparison with NaN is false. *)
Definition isBefore (a b : Date) : bool :=
  match a, b with
  | Some x, Some y => x <? y
  | _, _ => false
  end.

Definition isAfter (a b : Date) : bool :=
  match a, b with
  | Some x, Some y => y <? x
  | _, _ => false
  end.

Definition isSameDay (a b : Date) : bool :=
  match setHours0 a, setHours0 b with
  | Some x, Some y => x =? y
  | _, _ => false
  end.

(** [date.toISOString()] of a valid date, for years 0..9999. *)
Definition toISOString (ms : Z) : string :=
  let '(y, m, d) := civil_from_days (dayOf ms) in
  let t := ms - midnight (dayOf ms) in
  addLeadingZeros y 4 ++ "-" ++ addLeadingZeros m 2 ++ "-"
    ++ addLeadingZeros d 2 ++ "T"
    ++ addLeadingZeros (t / 3600000) 2 ++ ":"
    ++ addLeadingZeros (t / 60000 mod 60) 2 ++ ":"
    ++ addLeadingZeros (t / 1000 mod 60) 2 ++ "."
    ++ addLeadingZeros (t mod 1000) 3 ++ "Z".

End DateFns.

(* ================================================================== *)
(** * The data model ([types/index.ts]) *)
(* ================================================================== *)

Inductive TaskType : Type :=
| SystemAdmin | DigitalTransformation | AuditSupport | RiskManagement
| Reporting | StakeholderEngagement | AdHoc | CustomType.

Inductive TaskStatus : Type :=
| NotStarted | InProgress | Blocked | UnderReview | Complete | Cancelled.

Inductive Priority : Type :=
| Critical | High | Medium | Low.

Inductive MilestoneStatus : Type :=
| Upcoming | MsInProgress | Achieved | Missed.

Inductive SubtaskStatus : Type :=
| Open | Done.

Inductive AlertType : Type :=
| overdue | due_today | at_risk | milestone_due_soon.

(** The string each literal type stands for at run time. *)
Definition TaskType_str (t : TaskType) : string :=
  match t with
  | SystemAdmin => "System Admin"
  | DigitalTransformation => "Digital Transformation"
  | AuditSupport => "Audit Support"
  | RiskManagement => "Risk Management"
  | Reporting => "Reporting"
  | StakeholderEngagement => "Stakeholder Engagement"
  | AdHoc => "Ad-hoc"
  | CustomType => "Custom"
  end.

Definition TaskStatus_str (s : TaskStatus) : string :=
  match s with
  | NotStarted => "Not Started"
  | InProgress => "In Progress"
  | Blocked => "Blocked"
  | UnderReview => "Under Review"
  | Complete => "Complete"
  | Cancelled => "Cancelled"
  end.

Definition Priority_str (p : Priority) : string :=
  match p with
  | Critical => "Critical"
  | High => "High"
  | Medium => "Medium"
  | Low => "Low"
  end.

Definition AlertType_str (a : AlertType) : string :=
  match a with
  | overdue => "overdue"
  | due_today => "due-today"
  | at_risk => "at-risk"
  | milestone_due_soon => "milestone-due-soon"
  end.

Definition TaskStatus_eqb (a b : TaskStatus) : bool :=
  match a, b with
  | NotStarted, NotStarted | InProgress, InProgress | Blocked, Blocked
  | UnderReview, UnderReview | Complete, Complete
  | Cancelled, Cancelled => true
  | _, _ => false
  end.

Module UpdateEntry.
Record t : Type := mk { id : string; timestamp : string; text : string }.
End UpdateEntry.

Module ChangelogEntry.
Record t : Type := mk {
  id : string;
  timestamp : string;
  field : string;
  oldValue : string;
  newValue : string }.
End ChangelogEntry.

Module TaskLink.
Record t : Type := mk { id : string; label : string; url : string }.
End TaskLink.

Module Subtask.
Record t : Type := mk {
  id : string;
  title : string;
  status : SubtaskStatus;
  dueDate : option string }.
End Subtask.

Module Milestone.
Record t : Type := mk {
  id : string;
  name : string;
  targetDate : string;
  status : MilestoneStatus }.
End Milestone.

(** [pattern] is kept as the run-time string: [nextDueDate] switches on it
    with a [default] branch for values outside the [RecurrencePattern]
    union. *)
Module RecurrenceConfig.
Record t : Type := mk {
  pattern : string;
  interval : Z;
  nextDue : option string;
  lastCompleted : option string;
  cycleCount : Z }.
End RecurrenceConfig.

(** [reminderDays] is optional at run time: the alert engine guards it with
    [|| 2] and [createTask] with [?? 2]. [projectId] is the optional link
    into the project collection. *)
Module Task.
Record t : Type := mk {
  id : string;
  title : string;
  description : option string;
  taskType : TaskType;
  status : TaskStatus;
  priority : Priority;
  dueDate : string;
  startDate : option string;
  assignee : option string;
  updates : list UpdateEntry.t;
  notes : option string;
  subtasks : list Subtask.t;
  milestones : list Milestone.t;
  isRecurring : bool;
  recurrence : option RecurrenceConfig.t;
  reminderDays : option Z;
  createdAt : string;
  updatedAt : string;
  completedAt : option string;
  changelog : list ChangelogEntry.t;
  isPaused : option bool;
  links : list TaskLink.t;
  projectId : option string }.
End Task.

Module AlertItem.
Record t : Type := mk {
  id : string;
  type : AlertType;
  taskId : string;
  taskTitle : string;
  milestoneId : option string;
  milestoneName : option string;
  date : string }.
End AlertItem.

Inductive ProjectStatus : Type :=
| Planning | Active | OnHold | ProjComplete | ProjCancelled.

(** Modelled from the spec: the [Project] interface is not among the type
    declarations; its fields are those of the data model's Project entry
    (identity, name, status, priority, target date, optional start date and
    owner, links, creation and update instants). *)
Module Project.
Record t : Type := mk {
  id : string;
  name : string;
  status : ProjectStatus;
  priority : Priority;
  targetDate : string;
  startDate : option string;
  owner : option string;
  links : list TaskLink.t;
  createdAt : string;
  updatedAt : string }.
End Project.

(** Functional record update, one setter per field written by the store. *)
Module TaskSet.
Definition title (v : string) (t : Task.t) : Task.t :=
  Task.mk (Task.id t) v (Task.description t) (Task.taskType t) (Task.status
    t) (Task.priority t) (Task.dueDate t) (Task.startDate t) (Task.assignee
    t) (Task.updates t) (Task.notes t) (Task.subtasks t) (Task.milestones t)
    (Task.isRecurring t) (Task.recurrence t) (Task.reminderDays t)
    (Task.createdAt t) (Task.updatedAt t) (Task.completedAt t)
    (Task.changelog t) (Task.isPaused t) (Task.links t) (Task.projectId t).
Definition description (v : option string) (t : Task.t) : Task.t :=
  Task.mk (Task.id t) (Task.title t) v (Task.taskType t) (Task.status t)
    (Task.priority t) (Task.dueDate t) (Task.startDate t) (Task.assignee t)
    (Task.updates t) (Task.notes t) (Task.subtasks t) (Task.milestones t)
    (Task.isRecurring t) (Task.recurrence t) (Task.reminderDays t)
    (Task.createdAt t) (Task.updatedAt t) (Task.completedAt t)
    (Task.changelog t) (Task.isPaused t) (Task.links t) (Task.projectId t).
Definition taskType (v : TaskType) (t : Task.t) : Task.t :=
  Task.mk (Task.id t) (Task.title t) (Task.description t) v (Task.status t)
    (Task.priority t) (Task.dueDate t) (Task.startDate t) (Task.assignee t)
    (Task.updates t) (Task.notes t) (Task.subtasks t) (Task.milestones t)
    (Task.isRecurring t) (Task.recurrence t) (Task.reminderDays t)
    (Task.createdAt t) (Task.updatedAt t) (Task.completedAt t)
    (Task.changelog t) (Task.isPaused t) (Task.links t) (Task.projectId t).
Definition status (v : TaskStatus) (t : Task.t) : Task.t :=
  Task.mk (Task.id t) (Task.title t) (Task.description t) (Task.taskType t)
    v (Task.priority t) (Task.dueDate t) (Task.startDate t) (Task.assignee
    t) (Task.updates t) (Task.notes t) (Task.subtasks t) (Task.milestones t)
    (Task.isRecurring t) (Task.recurrence t) (Task.reminderDays t)
    (Task.createdAt t) (Task.updatedAt t) (Task.completedAt t)
    (Task.changelog t) (Task.isPaused t) (Task.links t) (Task.projectId t).
Definition priority (v : Priority) (t : Task.t) : Task.t :=
  Task.mk (Task.id t) (Task.title t) (Task.description t) (Task.taskType t)
    (Task.status t) v (Task.dueDate t) (Task.startDate t) (Task.assignee t)
    (Task.updates t) (Task.notes t) (Task.subtasks t) (Task.milestones t)
    (Task.isRecurring t) (Task.recurrence t) (Task.reminderDays t)
    (Task.createdAt t) (Task.updatedAt t) (Task.completedAt t)
    (Task.changelog t) (Task.isPaused t) (Task.links t) (Task.projectId t).
Definition dueDate (v : string) (t : Task.t) : Task.t :=
  Task.mk (Task.id t) (Task.title t) (Task.description t) (Task.taskType t)
    (Task.status t) (Task.priority t) v (Task.startDate t) (Task.assignee t)
    (Task.updates t) (Task.notes t) (Task.subtasks t) (Task.milestones t)
    (Task.isRecurring t) (Task.recurrence t) (Task.reminderDays t)
    (Task.createdAt t) (Task.updatedAt t) (Task.completedAt t)
    (Task.changelog t) (Task.isPaused t) (Task.links t) (Task.projectId t).
Definition startDate (v : option string) (t : Task.t) : Task.t :=
  Task.mk (Task.id t) (Task.title t) (Task.description t) (Task.taskType t)
    (Task.status t) (Task.priority t) (Task.dueDate t) v (Task.assignee t)
    (Task.updates t) (Task.notes t) (Task.subtasks t) (Task.milestones t)
    (Task.isRecurring t) (Task.recurrence t) (Task.reminderDays t)
    (Task.createdAt t) (Task.updatedAt t) (Task.completedAt t)
    (Task.changelog t) (Task.isPaused t) (Task.links t) (Task.projectId t).
Definition assignee (v : option string) (t : Task.t) : Task.t :=
  Task.mk (Task.id t) (Task.title t) (Task.description t) (Task.taskType t)
    (Task.status t) (Task.priority t) (Task.dueDate t) (Task.startDate t) v
    (Task.updates t) (Task.notes t) (Task.subtasks t) (Task.milestones t)
    (Task.isRecurring t) (Task.recurrence t) (Task.reminderDays t)
    (Task.createdAt t) (Task.updatedAt t) (Task.completedAt t)
    (Task.changelog t) (Task.isPaused t) (Task.links t) (Task.projectId t).
Definition updates (v : list UpdateEntry.t) (t : Task.t) : Task.t :=
  Task.mk (Task.id t) (Task.title t) (Task.description t) (Task.taskType t)
    (Task.status t) (Task.priority t) (Task.dueDate t) (Task.startDate t)
    (Task.assignee t) v (Task.notes t) (Task.subtasks t) (Task.milestones t)
    (Task.isRecurring t) (Task.recurrence t) (Task.reminderDays t)
    (Task.createdAt t) (Task.updatedAt t) (Task.completedAt t)
    (Task.changelog t) (Task.isPaused t) (Task.links t) (Task.projectId t).
Definition notes (v : option string) (t : Task.t) : Task.t :=
  Task.mk (Task.id t) (Task.title t) (Task.description t) (Task.taskType t)
    (Task.status t) (Task.priority t) (Task.dueDate t) (Task.startDate t)
    (Task.assignee t) (Task.updates t) v (Task.subtasks t) (Task.milestones
    t) (Task.isRecurring t) (Task.recurrence t) (Task.reminderDays t)
    (Task.createdAt t) (Task.updatedAt t) (Task.completedAt t)
    (Task.changelog t) (Task.isPaused t) (Task.links t) (Task.projectId t).
Definition subtasks (v : list Subtask.t) (t : Task.t) : Task.t :=
  Task.mk (Task.id t) (Task.title t) (Task.description t) (Task.taskType t)
    (Task.status t) (Task.priority t) (Task.dueDate t) (Task.startDate t)
    (Task.assignee t) (Task.updates t) (Task.notes t) v (Task.milestones t)
    (Task.isRecurring t) (Task.recurrence t) (Task.reminderDays t)
    (Task.createdAt t) (Task.updatedAt t) (Task.completedAt t)
    (Task.changelog t) (Task.isPaused t) (Task.links t) (Task.projectId t).
Definition milestones (v : list Milestone.t) (t : Task.t) : Task.t :=
  Task.mk (Task.id t) (Task.title t) (Task.description t) (Task.taskType t)
    (Task.status t) (Task.priority t) (Task.dueDate t) (Task.startDate t)
    (Task.assignee t) (Task.updates t) (Task.notes t) (Task.subtasks t) v
    (Task.isRecurring t) (Task.recurrence t) (Task.reminderDays t)
    (Task.createdAt t) (Task.updatedAt t) (Task.completedAt t)
    (Task.changelog t) (Task.isPaused t) (Task.links t) (Task.projectId t).
Definition isRecurring (v : bool) (t : Task.t) : Task.t :=
  Task.mk (Task.id t) (Task.title t) (Task.description t) (Task.taskType t)
    (Task.status t) (Task.priority t) (Task.dueDate t) (Task.startDate t)
    (Task.assignee t) (Task.updates t) (Task.notes t) (Task.subtasks t)
    (Task.milestones t) v (Task.recurrence t) (Task.reminderDays t)
    (Task.createdAt t) (Task.updatedAt t) (Task.completedAt t)
    (Task.changelog t) (Task.isPaused t) (Task.links t) (Task.projectId t).
Definition recurrence (v : option RecurrenceConfig.t) (t : Task.t) : Task.t :=
  Task.mk (Task.id t) (Task.title t) (Task.description t) (Task.taskType t)
    (Task.status t) (Task.priority t) (Task.dueDate t) (Task.startDate t)
    (Task.assignee t) (Task.updates t) (Task.notes t) (Task.subtasks t)
    (Task.milestones t) (Task.isRecurring t) v (Task.reminderDays t)
    (Task.createdAt t) (Task.updatedAt t) (Task.completedAt t)
    (Task.changelog t) (Task.isPaused t) (Task.links t) (Task.projectId t).
Definition reminderDays (v : option Z) (t : Task.t) : Task.t :=
  Task.mk (Task.id t) (Task.title t) (Task.description t) (Task.taskType t)
    (Task.status t) (Task.priority t) (Task.dueDate t) (Task.startDate t)
    (Task.assignee t) (Task.updates t) (Task.notes t) (Task.subtasks t)
    (Task.milestones t) (Task.isRecurring t) (Task.recurrence t) v
    (Task.createdAt t) (Task.updatedAt t) (Task.completedAt t)
    (Task.changelog t) (Task.isPaused t) (Task.links t) (Task.projectId t).
Definition updatedAt (v : string) (t : Task.t) : Task.t :=
  Task.mk (Task.id t) (Task.title t) (Task.description t) (Task.taskType t)
    (Task.status t) (Task.priority t) (Task.dueDate t) (Task.startDate t)
    (Task.assignee t) (Task.updates t) (Task.notes t) (Task.subtasks t)
    (Task.milestones t) (Task.isRecurring t) (Task.recurrence t)
    (Task.reminderDays t) (Task.createdAt t) v (Task.completedAt t)
    (Task.changelog t) (Task.isPaused t) (Task.links t) (Task.projectId t).
Definition completedAt (v : option string) (t : Task.t) : Task.t :=
  Task.mk (Task.id t) (Task.title t) (Task.description t) (Task.taskType t)
    (Task.status t) (Task.priority t) (Task.dueDate t) (Task.startDate t)
    (Task.assignee t) (Task.updates t) (Task.notes t) (Task.subtasks t)
    (Task.milestones t) (Task.isRecurring t) (Task.recurrence t)
    (Task.reminderDays t) (Task.createdAt t) (Task.updatedAt t) v
    (Task.changelog t) (Task.isPaused t) (Task.links t) (Task.projectId t).
Definition changelog (v : list ChangelogEntry.t) (t : Task.t) : Task.t :=
  Task.mk (Task.id t) (Task.title t) (Task.description t) (Task.taskType t)
    (Task.status t) (Task.priority t) (Task.dueDate t) (Task.startDate t)
    (Task.assignee t) (Task.updates t) (Task.notes t) (Task.subtasks t)
    (Task.milestones t) (Task.isRecurring t) (Task.recurrence t)
    (Task.reminderDays t) (Task.createdAt t) (Task.updatedAt t)
    (Task.completedAt t) v (Task.isPaused t) (Task.links t) (Task.projectId
    t).
Definition isPaused (v : option bool) (t : Task.t) : Task.t :=
  Task.mk (Task.id t) (Task.title t) (Task.description t) (Task.taskType t)
    (Task.status t) (Task.priority t) (Task.dueDate t) (Task.startDate t)
    (Task.assignee t) (Task.updates t) (Task.notes t) (Task.subtasks t)
    (Task.milestones t) (Task.isRecurring t) (Task.recurrence t)
    (Task.reminderDays t) (Task.createdAt t) (Task.updatedAt t)
    (Task.completedAt t) (Task.changelog t) v (Task.links t) (Task.projectId
    t).
Definition links (v : list TaskLink.t) (t : Task.t) : Task.t :=
  Task.mk (Task.id t) (Task.title t) (Task.description t) (Task.taskType t)
    (Task.status t) (Task.priority t) (Task.dueDate t) (Task.startDate t)
    (Task.assignee t) (Task.updates t) (Task.notes t) (Task.subtasks t)
    (Task.milestones t) (Task.isRecurring t) (Task.recurrence t)
    (Task.reminderDays t) (Task.createdAt t) (Task.updatedAt t)
    (Task.completedAt t) (Task.changelog t) (Task.isPaused t) v
    (Task.projectId t).
Definition projectId (v : option string) (t : Task.t) : Task.t :=
  Task.mk (Task.id t) (Task.title t) (Task.description t) (Task.taskType t)
    (Task.status t) (Task.priority t) (Task.dueDate t) (Task.startDate t)
    (Task.assignee t) (Task.updates t) (Task.notes t) (Task.subtasks t)
    (Task.milestones t) (Task.isRecurring t) (Task.recurrence t)
    (Task.reminderDays t) (Task.createdAt t) (Task.updatedAt t)
    (Task.completedAt t) (Task.changelog t) (Task.isPaused t) (Task.links t)
    v.
End TaskSet.

(** * Partial updates

    A [Partial<Task>] object is the list of its own properties in
    insertion order, the order [Object.entries] enumerates them in. The
    keys are those of [updateTask]'s parameter type together with [updates],
    [subtasks] and [milestones], which the recurrence engine's patch carries
    through its cast. *)
Module Patch.

Inductive Field : Type :=
| F_title (v : string)
| F_description (v : option string)
| F_taskType (v : TaskType)
| F_status (v : TaskStatus)
| F_priority (v : Priority)
| F_dueDate (v : string)
| F_startDate (v : option string)
| F_assignee (v : option string)
| F_updates (v : list UpdateEntry.t)
| F_notes (v : option string)
| F_subtasks (v : list Subtask.t)
| F_milestones (v : list Milestone.t)
| F_isRecurring (v : bool)
| F_recurrence (v : option RecurrenceConfig.t)
| F_reminderDays (v : option Z)
| F_updatedAt (v : string)
| F_completedAt (v : option string)
| F_isPaused (v : option bool)
| F_links (v : list TaskLink.t)
| F_projectId (v : option string).

Definition t : Type := list Field.

Definition key (f : Field) : string :=
  match f with
  | F_title _ => "title"
  | F_description _ => "description"
  | F_taskType _ => "taskType"
  | F_status _ => "status"
  | F_priority _ => "priority"
  | F_dueDate _ => "dueDate"
  | F_startDate _ => "startDate"
  | F_assignee _ => "assignee"
  | F_updates _ => "updates"
  | F_notes _ => "notes"
  | F_subtasks _ => "subtasks"
  | F_milestones _ => "milestones"
  | F_isRecurring _ => "isRecurring"
  | F_recurrence _ => "recurrence"
  | F_reminderDays _ => "reminderDays"
  | F_updatedAt _ => "updatedAt"
  | F_completedAt _ => "completedAt"
  | F_isPaused _ => "isPaused"
  | F_links _ => "links"
  | F_projectId _ => "projectId"
  end.

Definition ofOptString (o : option string) : JS.Value :=
  match o with Some s => JS.Str s | None => JS.Undefined end.
Definition ofOptBool (o : option bool) : JS.Value :=
  match o with Some b => JS.Bool b | None => JS.Undefined end.
Definition ofOptNum (o : option Z) : JS.Value :=
  match o with Some n => JS.Num n | None => JS.Undefined end.
Definition ofOptObj {A : Type} (o : option A) : JS.Value :=
  match o with Some _ => JS.Obj | None => JS.Undefined end.
Definition ofObjects {A : Type} (l : list A) : JS.Value :=
  JS.Arr (map (fun _ => JS.Obj) l).

(** The value a property of the patch holds. *)
Definition value (f : Field) : JS.Value :=
  match f with
  | F_title v => JS.Str v
  | F_description v => ofOptString v
  | F_taskType v => JS.Str (TaskType_str v)
  | F_status v => JS.Str (TaskStatus_str v)
  | F_priority v => JS.Str (Priority_str v)
  | F_dueDate v => JS.Str v
  | F_startDate v => ofOptString v
  | F_assignee v => ofOptString v
  | F_updates v => ofObjects v
  | F_notes v => ofOptString v
  | F_subtasks v => ofObjects v
  | F_milestones v => ofObjects v
  | F_isRecurring v => JS.Bool v
  | F_recurrence v => ofOptObj v
  | F_reminderDays v => ofOptNum v
  | F_updatedAt v => JS.Str v
  | F_completedAt v => ofOptString v
  | F_isPaused v => ofOptBool v
  | F_links v => ofObjects v
  | F_projectId v => ofOptString v
  end.

(** [task[key]]: the task's value under the key of [f]. *)
Definition lookup (task : Task.t) (f : Field) : JS.Value :=
  match f with
  | F_title _ => JS.Str (Task.title task)
  | F_description _ => ofOptString (Task.description task)
  | F_taskType _ => JS.Str (TaskType_str (Task.taskType task))
  | F_status _ => JS.Str (TaskStatus_str (Task.status task))
  | F_priority _ => JS.Str (Priority_str (Task.priority task))
  | F_dueDate _ => JS.Str (Task.dueDate task)
  | F_startDate _ => ofOptString (Task.startDate task)
  | F_assignee _ => ofOptString (Task.assignee task)
  | F_updates _ => ofObjects (Task.updates task)
  | F_notes _ => ofOptString (Task.notes task)
  | F_subtasks _ => ofObjects (Task.subtasks task)
  | F_milestones _ => ofObjects (Task.milestones task)
  | F_isRecurring _ => JS.Bool (Task.isRecurring task)
  | F_recurrence _ => ofOptObj (Task.recurrence task)
  | F_reminderDays _ => ofOptNum (Task.reminderDays task)
  | F_updatedAt _ => JS.Str (Task.updatedAt task)
  | F_completedAt _ => ofOptString (Task.completedAt task)
  | F_isPaused _ => ofOptBool (Task.isPaused task)
  | F_links _ => ofObjects (Task.links task)
  | F_projectId _ => ofOptString (Task.projectId task)
  end.

(** Assignment of one property, and the spread [{ ...task, ...updates }]. *)
Definition assign (task : Task.t) (f : Field) : Task.t :=
  match f with
  | F_title v => TaskSet.title v task
  | F_description v => TaskSet.description v task
  | F_taskType v => TaskSet.taskType v task
  | F_status v => TaskSet.status v task
  | F_priority v => TaskSet.priority v task
  | F_dueDate v => TaskSet.dueDate v task
  | F_startDate v => TaskSet.startDate v task
  | F_assignee v => TaskSet.assignee v task
  | F_updates v => TaskSet.updates v task
  | F_notes v => TaskSet.notes v task
  | F_subtasks v => TaskSet.subtasks v task
  | F_milestones v => TaskSet.milestones v task
  | F_isRecurring v => TaskSet.isRecurring v task
  | F_recurrence v => TaskSet.recurrence v task
  | F_reminderDays v => TaskSet.reminderDays v task
  | F_updatedAt v => TaskSet.updatedAt v task
  | F_completedAt v => TaskSet.completedAt v task
  | F_isPaused v => TaskSet.isPaused v task
  | F_links v => TaskSet.links v task
  | F_projectId v => TaskSet.projectId v task
  end.

Definition spread (task : Task.t) (updates : t) : Task.t :=
  fold_left assign updates task.

(** [updates.status]: [None] when the patch has no [status] property. *)
Definition status (updates : t) : option TaskStatus :=
  fold_left (fun acc f => match f with F_status s => Some s | _ => acc end)
    updates None.

(** [updates.dueDate] *)
Definition dueDate (updates : t) : option string :=
  fold_left (fun acc f => match f with F_dueDate s => Some s | _ => acc end)
    updates None.


End Patch.

(* ================================================================== *)
(** * The world: stores, clock and identifier source *)
(* ================================================================== *)

Module Runtime.

(** [tasks] and [projects] are the states of the two zustand stores;
    [savedTasks] and [savedProjects] the collections last written to local
    storage. [clock k] is the instant returned by the [k]-th reading of the
    system clock and [uuids k] the [k]-th identifier drawn. *)
Record World : Type := mkWorld {
  tasks : list Task.t;
  projects : list Project.t;
  savedTasks : list Task.t;
  savedProjects : list Project.t;
  clock : nat -> Z;
  ticks : nat;
  uuids : nat -> string;
  drawn : nat }.

Inductive Result (A : Type) : Type :=
| Ok (a : A)
| Throw (e : JS.Exn).
Arguments Ok {A} a.
Arguments Throw {A} e.

(** Computations that read and write the world and may throw; the world
    reached when an exception is thrown is kept. *)
Definition M (A : Type) : Type := World -> Result A * World.

Definition ret {A : Type} (a : A) : M A := fun w => (Ok a, w).

Definition bind {A B : Type} (c : M A) (k : A -> M B) : M B :=
  fun w =>
    match c w with
    | (Ok a, w') => k a w'
    | (Throw e, w') => (Throw e, w')
    end.

Definition throw {A : Type} (e : JS.Exn) : M A := fun w => (Throw e, w).

Definition lift {A : Type} (r : JS.Exn + A) : M A :=
  match r with
  | inl e => throw e
  | inr a => ret a
  end.

Declare Scope js_scope.
Delimit Scope js_scope with js.
Notation "x <- c ;; k" := (bind c (fun x => k))
  (at level 61, c at next level, right associativity) : js_scope.
Notation "c ;;; k" := (bind c (fun _ => k))
  (at level 61, right associativity) : js_scope.
Local Open Scope js_scope.

(** [Date.now()] / [new Date()] *)
Definition Date_now : M Z :=
  fun w =>
    (Ok (clock w (ticks w)),
     mkWorld (tasks w) (projects w) (savedTasks w) (savedProjects w)
       (clock w) (S (ticks w)) (uuids w) (drawn w)).

(** [new Date().toISOString()] *)
Definition nowISO : M string :=
  ms <- Date_now ;; ret (DateFns.toISOString ms).

Definition uuidv4 : M string :=
  fun w =>
    (Ok (uuids w (drawn w)),
     mkWorld (tasks w) (projects w) (savedTasks w) (savedProjects w)
       (clock w) (ticks w) (uuids w) (S (drawn w))).

(** [get().tasks], and [saveTasks(tasks); set({ tasks })]. *)
Definition getTasks : M (list Task.t) := fun w => (Ok (tasks w), w).

Definition commitTasks (ts : list Task.t) : M unit :=
  fun w =>
    (Ok tt,
     mkWorld ts (projects w) ts (savedProjects w)
       (clock w) (ticks w) (uuids w) (drawn w)).



(** [xs.map(f)] with an effectful callback, left to right. *)
Fixpoint mapM {A B : Type} (f : A -> M B) (xs : list A) : M (list B) :=
  match xs with
  | [] => ret []
  | x :: rest =>
      y <- f x ;;
      ys <- mapM f rest ;;
      ret (y :: ys)
  end.

(** [for (const x of xs) body] and [xs.forEach(body)]. *)
Fixpoint forEach {A : Type} (body : A -> M unit) (xs : list A) : M unit :=
  match xs with
  | [] => ret tt
  | x :: rest => body x ;;; forEach body rest
  end.

(** A loop that pushes onto a local array. *)
Fixpoint foldM {A S : Type} (body : S -> A -> M S) (xs : list A) (acc : S)
  : M S :=
  match xs with
  | [] => ret acc
  | x :: rest => acc' <- body acc x ;; foldM body rest acc'
  end.

(** [isToday(date)]: compares with the clock read at the call. *)
Definition isToday (d : DateFns.Date) : M bool :=
  now <- Date_now ;; ret (DateFns.isSameDay d (Some now)).

End Runtime.

Import Runtime.
Local Open Scope js_scope.

(* ================================================================== *)
(** * The recurrence engine ([utils/recurrence.ts]) *)
(* ================================================================== *)

Module Recurrence.

Definition nextDueDate (current pattern : string) (interval : Z)
  : JS.Exn + string :=
  let date := DateFns.parseISO current in
  let next :=
    if (pattern =? "Daily")%string then DateFns.addDays date interval
    else if (pattern =? "Weekly")%string then DateFns.addWeeks date interval
    else if (pattern =? "Bi-weekly")%string
      then DateFns.addWeeks date (2 * interval)
    else if (pattern =? "Monthly")%string
      then DateFns.addMonths date interval
    else if (pattern =? "Quarterly")%string
      then DateFns.addQuarters date interval
    else if (pattern =? "Custom")%string then DateFns.addDays date interval
    else DateFns.addWeeks date 1 in
  DateFns.format next.

Definition resetSubtask (s : Subtask.t) : Subtask.t :=
  Subtask.mk (Subtask.id s) (Subtask.title s) Open (Subtask.dueDate s).

Definition generateNextInstance (task : Task.t) : M Patch.t :=
  match Task.isRecurring task, Task.recurrence task with
  | true, Some rc =>
      let baseDate := Task.dueDate task in
      newDue <- lift (nextDueDate baseDate (RecurrenceConfig.pattern rc)
                        (RecurrenceConfig.interval rc)) ;;
      let subtasks := map resetSubtask (Task.subtasks task) in
      lastCompleted <- nowISO ;;
      ret [ Patch.F_dueDate newDue;
            Patch.F_status NotStarted;
            Patch.F_completedAt None;
            Patch.F_updates [];
            Patch.F_subtasks subtasks;
            Patch.F_recurrence
              (Some (RecurrenceConfig.mk
                       (RecurrenceConfig.pattern rc)
                       (RecurrenceConfig.interval rc)
                       (Some newDue)
                       (Some lastCompleted)
                       (JS.or_number (Some (RecurrenceConfig.cycleCount rc)) 0
                        + 1))) ]
  | _, _ => ret []
  end.

Definition isTrue (b : option bool) : bool :=
  match b with
  | Some true => true
  | _ => false
  end.

Definition hasDueDate (next : Patch.t) : bool :=
  match Patch.dueDate next with
  | Some s => JS.truthy_string s
  | None => false
  end.

Definition checkAndGenerateRecurring (tasks : list Task.t)
    (updateTask : string -> Patch.t -> M unit) : M unit :=
  Date_now ;;;
  forEach (fun task =>
    if negb (Task.isRecurring task) || isTrue (Task.isPaused task)
       || match Task.recurrence task with None => true | Some _ => false end
    then ret tt
    else if negb (TaskStatus_eqb (Task.status task) Complete) then ret tt
    else
      next <- generateNextInstance task ;;
      if hasDueDate next then updateTask (Task.id task) next else ret tt)
    tasks.

End Recurrence.

(* ================================================================== *)
(** * The alert engine ([utils/alertEngine.ts]) *)
(* ================================================================== *)

Module AlertEngine.

Definition alertId (type taskId : string) (extra : option string) : string :=
  type ++ ":" ++ taskId ++
  match extra with
  | Some e => if JS.truthy_string e then ":" ++ e else ""
  | None => ""
  end.

Definition dueAlert (type : AlertType) (task : Task.t) : AlertItem.t :=
  AlertItem.mk (alertId (AlertType_str type) (Task.id task) None) type
    (Task.id task) (Task.title task) None None (Task.dueDate task).

Definition milestoneAlert (task : Task.t) (ms : Milestone.t) : AlertItem.t :=
  AlertItem.mk
    (alertId (AlertType_str milestone_due_soon) (Task.id task)
       (Some (Milestone.id ms)))
    milestone_due_soon (Task.id task) (Task.title task)
    (Some (Milestone.id ms)) (Some (Milestone.name ms))
    (Milestone.targetDate ms).

Definition isCriticalOrHigh (p : Priority) : bool :=
  match p with
  | Critical | High => true
  | _ => false
  end.

(** The milestone loop of one task. *)
Definition scanMilestones (today : DateFns.Date) (task : Task.t)
    (alerts : list AlertItem.t) : list AlertItem.t :=
  fold_left (fun alerts ms =>
    match Milestone.status ms with
    | Achieved | Missed => alerts
    | _ =>
        let msDate := DateFns.setHours0
                        (DateFns.parseISO (Milestone.targetDate ms)) in
        if negb (DateFns.isBefore msDate today)
           && DateFns.isAfter (DateFns.addDays today 3) msDate
        then (alerts ++ [milestoneAlert task ms])%list
        else alerts
    end) (Task.milestones task) alerts.

(** The body of the task loop. *)
Definition scanTask (today : DateFns.Date) (alerts : list AlertItem.t)
    (task : Task.t) : M (list AlertItem.t) :=
  match Task.status task with
  | Complete | Cancelled => ret alerts
  | _ =>
      let due := DateFns.setHours0 (DateFns.parseISO (Task.dueDate task)) in
      alerts1 <-
        (if DateFns.isBefore due today
         then ret (alerts ++ [dueAlert overdue task])%list
         else
           dueToday <- isToday due ;;
           if dueToday then ret (alerts ++ [dueAlert due_today task])%list
           else if isCriticalOrHigh (Task.priority task)
                   && DateFns.isAfter today
                        (DateFns.addDays due
                           (- JS.or_number (Task.reminderDays task) 2))
                   && negb (DateFns.isBefore due today)
           then ret (alerts ++ [dueAlert at_risk task])%list
           else ret alerts) ;;
      ret (scanMilestones today task alerts1)
  end.

Definition computeAlerts (tasks : list Task.t) : M (list AlertItem.t) :=
  now <- Date_now ;;
  let today := DateFns.setHours0 (Some now) in
  foldM (scanTask today) tasks [].

End AlertEngine.

(* ================================================================== *)
(** * The task store ([store/taskStore.ts]) *)
(* ================================================================== *)

Module TaskStore.

Definition makeChangelog (field : string) (oldValue newValue : JS.Value)
  : M ChangelogEntry.t :=
  id <- uuidv4 ;;
  timestamp <- nowISO ;;
  ret (ChangelogEntry.mk id timestamp field
         (JS.String_ (JS.nullish oldValue (JS.Str "")))
         (JS.String_ (JS.nullish newValue (JS.Str "")))).

(** The argument of [createTask]. *)
Record NewTask : Type := mkNewTask {
  nTitle : string;
  nTaskType : TaskType;
  nStatus : option TaskStatus;
  nPriority : Priority;
  nDueDate : string;
  nDescription : option string;
  nStartDate : option string;
  nAssignee : option string;
  nNotes : option string;
  nIsRecurring : option bool;
  nRecurrence : option RecurrenceConfig.t;
  nReminderDays : option Z;
  nSubtasks : option (list Subtask.t);
  nMilestones : option (list Milestone.t) }.

Definition orEmpty {A : Type} (o : option (list A)) : list A :=
  match o with
  | Some l => l
  | None => []
  end.

Definition createTask (data : NewTask) : M string :=
  id <- uuidv4 ;;
  now <- nowISO ;;
  subtasks <- mapM (fun s =>
                      sid <- uuidv4 ;;
                      ret (Subtask.mk sid (Subtask.title s) (Subtask.status s)
                             (Subtask.dueDate s)))
                   (orEmpty (nSubtasks data)) ;;
  milestones <- mapM (fun m =>
                        mid <- uuidv4 ;;
                        ret (Milestone.mk mid (Milestone.name m)
                               (Milestone.targetDate m) (Milestone.status m)))
                     (orEmpty (nMilestones data)) ;;
  created <- makeChangelog "created" (JS.Str "") (JS.Str (nTitle data)) ;;
  let task :=
    Task.mk id (nTitle data) (nDescription data) (nTaskType data)
      (match nStatus data with Some s => s | None => NotStarted end)
      (nPriority data) (nDueDate data) (nStartDate data) (nAssignee data)
      [] (nNotes data) subtasks milestones
      (match nIsRecurring data with Some b => b | None => false end)
      (nRecurrence data)
      (Some (match nReminderDays data with Some n => n | None => 2 end))
      now now None [created] None [] None in
  ts <- getTasks ;;
  commitTasks (ts ++ [task])%list ;;;
  ret id.

Definition statusIs (o : option TaskStatus) (s : TaskStatus) : bool :=
  match o with
  | Some x => TaskStatus_eqb x s
  | None => false
  end.

Definition isDefined {A : Type} (o : option A) : bool :=
  match o with
  | Some _ => true
  | None => false
  end.

(** The [completedAt] of an updated task. *)
Definition nextCompletedAt (task : Task.t) (updates : Patch.t) (now : string)
  : option string :=
  if statusIs (Patch.status updates) Complete
     && negb (TaskStatus_eqb (Task.status task) Complete)
  then Some now
  else if negb (statusIs (Patch.status updates) Complete)
          && isDefined (Patch.status updates)
  then None
  else Task.completedAt task.

(** The callback [updateTask] maps over the collection. *)
Definition updateOne (id : string) (updates : Patch.t) (task : Task.t)
  : M Task.t :=
  if negb (Task.id task =? id)%string then ret task
  else
    now <- nowISO ;;
    entries <- mapM (fun f => makeChangelog (Patch.key f)
                                (Patch.lookup task f) (Patch.value f))
                 (filter (fun f => negb (Patch.key f =? "updatedAt")%string)
                    updates) ;;
    let completedAt := nextCompletedAt task updates now in
    ret (TaskSet.changelog (Task.changelog task ++ entries)%list
           (TaskSet.updatedAt now
              (TaskSet.completedAt completedAt
                 (Patch.spread task updates)))).

Definition updateTask (id : string) (updates : Patch.t) : M unit :=
  ts <- getTasks ;;
  tasks <- mapM (updateOne id updates) ts ;;
  commitTasks tasks.
















Definition importTasks (ts : list Task.t) : M unit := commitTasks ts.

End TaskStore.

(* ================================================================== *)
(** * The project store and the project panel *)
(* ================================================================== *)

Module ProjectStore.


End ProjectStore.

Module ProjectDetailPanel.



End ProjectDetailPanel.

(* ================================================================== *)
(** * The host ([App.tsx]) *)
(* ================================================================== *)

Module App.

Definition runAlertEngine : M (list AlertItem.t) :=
  ts <- getTasks ;; AlertEngine.computeAlerts ts.

Definition runRecurrenceCheck : M unit :=
  ts <- getTasks ;;
  Recurrence.checkAndGenerateRecurring ts TaskStore.updateTask.

End App.

(* ================================================================== *)
(** * Auxiliary definitions for the statements *)
(* ================================================================== *)

(** The world after [dt] more clock readings and [du] more identifiers. *)
Definition advance (w : World) (dt du : nat) : World :=
  mkWorld (tasks w) (projects w) (savedTasks w) (savedProjects w)
    (clock w) (dt + ticks w) (uuids w) (du + drawn w).

(** The world with its task collection replaced and saved. *)
Definition withTasks (w : World) (ts : list Task.t) : World :=
  mkWorld ts (projects w) ts (savedProjects w)
    (clock w) (ticks w) (uuids w) (drawn w).

(** The instant of the [k]-th clock reading from now, as [toISOString]
    prints it, and the [k]-th identifier from now. *)
Definition instant (w : World) (k : nat) : string :=
  DateFns.toISOString (clock w (k + ticks w)).

Definition fresh (w : World) (k : nat) : string := uuids w (k + drawn w).

Module Closed.

(** The properties of a patch that [updateTask] turns into changelog
    entries. *)
Definition auditable (updates : Patch.t) : Patch.t :=
  filter (fun f => negb (Patch.key f =? "updatedAt")%string) updates.

Definition entryFor (task : Task.t) (w : World) (k : nat) (f : Patch.Field)
  : ChangelogEntry.t :=
  ChangelogEntry.mk (fresh w k) (instant w k) (Patch.key f)
    (JS.String_ (JS.nullish (Patch.lookup task f) (JS.Str "")))
    (JS.String_ (JS.nullish (Patch.value f) (JS.Str ""))).

(** The entries [makeChangelog] builds for [fs], the first of them from the
    [k]-th clock reading and identifier from now. *)
Fixpoint entriesFrom (task : Task.t) (w : World) (k : nat)
    (fs : list Patch.Field) : list ChangelogEntry.t :=
  match fs with
  | [] => []
  | f :: rest => entryFor task w k f :: entriesFrom task w (S k) rest
  end.

(** The task [updateOne] returns for a task with the given id, run in
    world [w]. *)
Definition updatedTask (task : Task.t) (updates : Patch.t) (w : World)
  : Task.t :=
  TaskSet.changelog
    (Task.changelog task
       ++ entriesFrom task (advance w 1 0) 0 (auditable updates))%list
    (TaskSet.updatedAt (instant w 0)
       (TaskSet.completedAt
          (TaskStore.nextCompletedAt task updates (instant w 0))
          (Patch.spread task updates))).

(** The guard of the recurrence sweep. *)
Definition eligible (task : Task.t) : bool :=
  Task.isRecurring task
  && negb (Recurrence.isTrue (Task.isPaused task))
  && TaskStore.isDefined (Task.recurrence task)
  && TaskStatus_eqb (Task.status task) Complete.

(** Tasks the alert scan looks at. *)
Definition isActive (task : Task.t) : bool :=
  match Task.status task with
  | Complete | Cancelled => false
  | _ => true
  end.

(** The day number a date string denotes, if it parses. *)
Definition dayOfString (s : string) : option Z :=
  option_map DateFns.dayOf (DateFns.parseISO s).

(** The due-date alert of a task scanned with [today] as the scan's day
    and [nowDay] as the day [isToday] reads. *)
Definition dueClass (today nowDay : Z) (task : Task.t) : option AlertType :=
  match dayOfString (Task.dueDate task) with
  | None => None
  | Some due =>
      if due <? today then Some overdue
      else if due =? nowDay then Some due_today
      else if AlertEngine.isCriticalOrHigh (Task.priority task)
              && (due - JS.or_number (Task.reminderDays task) 2 <? today)
              && negb (due <? today)
      then Some at_risk
      else None
  end.

Definition dueAlerts (today nowDay : Z) (task : Task.t)
  : list AlertItem.t :=
  match dueClass today nowDay task with
  | Some type => [AlertEngine.dueAlert type task]
  | None => []
  end.

Definition dueSoon (today : Z) (ms : Milestone.t) : bool :=
  match Milestone.status ms with
  | Achieved | Missed => false
  | _ =>
      match dayOfString (Milestone.targetDate ms) with
      | Some target => (today <=? target) && (target <? today + 3)
      | None => false
      end
  end.

Definition milestoneAlerts (today : Z) (task : Task.t)
  : list AlertItem.t :=
  map (AlertEngine.milestoneAlert task)
    (filter (dueSoon today) (Task.milestones task)).

Definition taskAlerts (today nowDay : Z) (task : Task.t)
  : list AlertItem.t :=
  if isActive task
  then (dueAlerts today nowDay task ++ milestoneAlerts today task)%list
  else [].

(** The clock readings the scan of one task makes: one, by [isToday],
    unless the task is skipped or overdue. *)
Definition reads (today : Z) (task : Task.t) : nat :=
  if isActive task
  then match dayOfString (Task.dueDate task) with
       | Some due => if due <? today then 0%nat else 1%nat
       | None => 1%nat
       end
  else 0%nat.

(** The alert list of a scan of day [today] whose next clock reading is
    the [k]-th from now. *)
Fixpoint alertsFrom (today : Z) (w : World) (k : nat) (tasks : list Task.t)
  : list AlertItem.t :=
  match tasks with
  | [] => []
  | t :: rest =>
      (taskAlerts today (DateFns.dayOf (clock w (k + ticks w))) t
       ++ alertsFrom today w (reads today t + k) rest)%list
  end.

Fixpoint totalReads (today : Z) (tasks : list Task.t) : nat :=
  match tasks with
  | [] => 0%nat
  | t :: rest => (totalReads today rest + reads today t)%nat
  end.

(** The identifier scheme of alerts. *)
Definition idScheme (a : AlertItem.t) : Prop :=
  (AlertItem.type a <> milestone_due_soon ->
   AlertItem.id a
   = (AlertType_str (AlertItem.type a) ++ ":" ++ AlertItem.taskId a)%string)
  /\ (AlertItem.type a = milestone_due_soon ->
      exists m, AlertItem.milestoneId a = Some m
                /\ (m <> ""%string ->
                    AlertItem.id a
                    = ("milestone-due-soon:" ++ AlertItem.taskId a
                       ++ ":" ++ m)%string)).

(** The alert list of a scan all of whose clock readings fall on [today]. *)
Definition alertsOn (today : Z) (tasks : list Task.t) : list AlertItem.t :=
  flat_map (taskAlerts today today) tasks.



(** What [updateTask] does to a task of the collection. *)
Definition Updated (id : string) (updates : Patch.t) (t t' : Task.t)
  : Prop :=
  (Task.id t <> id /\ t' = t)
  \/ (Task.id t = id /\ exists wi, t' = updatedTask t updates wi).

(** The patch [generateNextInstance] returns for a recurring task with
    configuration [rc], next due date [newDue] and completion instant
    [lastCompleted]. *)
Definition regenPatch (task : Task.t) (rc : RecurrenceConfig.t)
    (newDue lastCompleted : string) : Patch.t :=
  [ Patch.F_dueDate newDue;
    Patch.F_status NotStarted;
    Patch.F_completedAt None;
    Patch.F_updates [];
    Patch.F_subtasks (map Recurrence.resetSubtask (Task.subtasks task));
    Patch.F_recurrence
      (Some (RecurrenceConfig.mk
               (RecurrenceConfig.pattern rc)
               (RecurrenceConfig.interval rc)
               (Some newDue)
               (Some lastCompleted)
               (JS.or_number (Some (RecurrenceConfig.cycleCount rc)) 0
                + 1))) ].

(** The body of the loop of [checkAndGenerateRecurring]. *)
Definition sweepBody (updateTask : string -> Patch.t -> M unit)
    (task : Task.t) : M unit :=
  if negb (Task.isRecurring task) || Recurrence.isTrue (Task.isPaused task)
     || match Task.recurrence task with None => true | Some _ => false end
  then ret tt
  else if negb (TaskStatus_eqb (Task.status task) Complete) then ret tt
  else
    bind (Recurrence.generateNextInstance task) (fun next =>
      if Recurrence.hasDueDate next then updateTask (Task.id task) next
      else ret tt).





(** Every task of the store that passes the guard has its id among the
    tasks the sweep has still to visit that pass the guard. *)
Definition Pending (xs cur : list Task.t) : Prop :=
  forall t, In t cur -> eligible t = true ->
            exists x, In x xs /\ Task.id x = Task.id t /\ eligible x = true.


End Closed.




(* ================================================================== *)
(** * Sample data *)
(* ================================================================== *)

Module Sample.

(** 2024-06-15T10:00:00.000Z *)
Definition t0 : Z := 1718445600000.

Definition task (id due : string) (st : TaskStatus) (p : Priority)
    (r : option Z) (ms : list Milestone.t) : Task.t :=
  Task.mk id "Quarterly report" None Reporting st p due None None
    [UpdateEntry.mk "u1" "2024-06-01T09:00:00.000Z" "drafted"] None
    [Subtask.mk "s1" "Collect figures" Done None;
     Subtask.mk "s2" "Write summary" Open (Some "2024-06-14")]
    ms true (Some (RecurrenceConfig.mk "Monthly" 1 None None 3)) r
    "2024-05-01T08:00:00.000Z" "2024-06-01T09:00:00.000Z"
    (Some "2024-06-14T17:00:00.000Z")
    [ChangelogEntry.mk "c1" "2024-05-01T08:00:00.000Z" "created" ""
       "Quarterly report"]
    None [] (Some "p1").

Definition project (id : string) : Project.t :=
  Project.mk id "Audit 2024" Active High "2024-12-31" None None []
    "2024-01-01T00:00:00.000Z" "2024-01-01T00:00:00.000Z".

Definition unary (k : nat) : string :=
  String "u" (String.concat "" (repeat "i" k)).

(** A world whose clock advances one millisecond per reading. *)
Definition world (ts : list Task.t) (ps : list Project.t) : World :=
  mkWorld ts ps ts ps (fun k => Z.of_nat k + t0) 0 unary 0.

Definition t1 : Task.t := task "t1" "2024-06-20" InProgress Low (Some 2) [].

Definition w1 : World := world [t1] [project "p1"; project "p2"].

(** Due tomorrow, Critical, with a reminder window of zero days. *)
Definition zeroReminder : Task.t :=
  task "t0" "2024-06-16" InProgress Critical (Some 0) [].

(** Due tomorrow, Low priority. *)
Definition dueTomorrow : Task.t :=
  task "t2" "2024-06-16" InProgress Low (Some 2) [].

(** Two worlds whose first clock reading is 2024-06-15T23:59:59.999Z; the
    later readings stay on that instant in the first and are
    2024-06-16T00:00:00.001Z in the second. *)
Definition lateA : World :=
  mkWorld [dueTomorrow] [] [dueTomorrow] []
    (fun _ => 1718495999999) 0 unary 0.

Definition lateB : World :=
  mkWorld [dueTomorrow] [] [dueTomorrow] []
    (fun k => nth k [1718495999999] 1718496000001) 0 unary 0.

Definition milestoneOn (date : string) : Milestone.t :=
  Milestone.mk "m1" "Review" date Upcoming.


(** Completed, recurring monthly, due at the end of January. *)
Definition done : Task.t :=
  task "t3" "2024-01-31" Complete High (Some 2) [milestoneOn "2024-03-01"].


Definition w3 : World := world [t1; done] [project "p1"].

(** Two worlds whose clock stays on 2024-06-15. *)
Definition noon : World :=
  mkWorld [zeroReminder; dueTomorrow] [] [] [] (fun _ => t0) 0 unary 0.

Definition evening : World :=
  mkWorld [zeroReminder; dueTomorrow] [] [] [] (fun _ => t0 + 30000000) 4
    unary 0.




End Sample.

(* ================================================================== *)
(** * Calendar facts *)
(* ================================================================== *)

Section Calendar.
Import DateFns.

Ltac Zify.zify_post_hook ::= Z.to_euclidean_division_equations.


Lemma dayOf_midnight (d : Z) : dayOf (midnight d) = d.
Proof. unfold dayOf, midnight, msPerDay. apply Z.div_mul. lia. Qed.



End Calendar.

(* ================================================================== *)
(** * Running the primitives *)
(* ================================================================== *)

Section Runs.
Import Closed.
Local Open Scope nat_scope.

Lemma bind_ok {A B : Type} (c : M A) (k : A -> M B) (w w' : World) (a : A) :
  c w = (Ok a, w') -> bind c k w = k a w'.
Proof. intros H. unfold bind. now rewrite H. Qed.

Lemma advance_0 (w : World) (dt du : nat) :
  advance (advance w dt du) 0 0 = advance w dt du.
Proof. reflexivity. Qed.

Lemma advance_advance (w : World) (a b c d : nat) :
  advance (advance w a b) c d = advance w (c + a) (d + b).
Proof. unfold advance. simpl. now rewrite !Nat.add_assoc. Qed.

Lemma run_Date_now (w : World) :
  Date_now w = (Ok (clock w (ticks w)), advance w 1 0).
Proof. reflexivity. Qed.

Lemma run_nowISO (w : World) : nowISO w = (Ok (instant w 0), advance w 1 0).
Proof. reflexivity. Qed.


Lemma run_makeChangelog (field : string) (o n : JS.Value) (w : World) :
  TaskStore.makeChangelog field o n w
  = (Ok (ChangelogEntry.mk (fresh w 0) (instant w 0) field
           (JS.String_ (JS.nullish o (JS.Str "")))
           (JS.String_ (JS.nullish n (JS.Str "")))),
     advance w 1 1).
Proof. reflexivity. Qed.

Lemma run_entries (task : Task.t) (fs : list Patch.Field) (w : World)
    (k : nat) :
  mapM (fun f => TaskStore.makeChangelog (Patch.key f)
                   (Patch.lookup task f) (Patch.value f)) fs (advance w k k)
  = (Ok (entriesFrom task w k fs),
     advance w (List.length fs + k) (List.length fs + k)).
Proof.
  revert k. induction fs as [| f rest IH]; intros k.
  - reflexivity.
  - cbn [mapM].
    rewrite (bind_ok _ _ _ _ _ (run_makeChangelog _ _ _ _)).
    change (advance (advance w k k) 1 1) with (advance w (S k) (S k)).
    rewrite (bind_ok _ _ _ _ _ (IH (S k))).
    unfold ret. cbn [entriesFrom List.length]. unfold entryFor.
    rewrite <- !plus_n_Sm. reflexivity.
Qed.

Lemma run_updateOne_other (id : string) (updates : Patch.t) (task : Task.t)
    (w : World) :
  Task.id task <> id ->
  TaskStore.updateOne id updates task w = (Ok task, w).
Proof.
  intros H. unfold TaskStore.updateOne.
  apply String.eqb_neq in H. now rewrite H.
Qed.

Lemma run_updateOne (id : string) (updates : Patch.t) (task : Task.t)
    (w : World) :
  Task.id task = id ->
  TaskStore.updateOne id updates task w
  = (Ok (updatedTask task updates w),
     advance w (S (List.length (auditable updates)))
       (List.length (auditable updates))).
Proof.
  intros H. unfold TaskStore.updateOne.
  apply String.eqb_eq in H. rewrite H. cbn [negb].
  rewrite (bind_ok _ _ _ _ _ (run_nowISO w)).
  pose proof (run_entries task (auditable updates) (advance w 1 0) 0) as E.
  rewrite advance_0 in E. unfold auditable in *.
  rewrite (bind_ok _ _ _ _ _ E).
  unfold ret, updatedTask, auditable. f_equal.
  rewrite advance_advance. now rewrite !Nat.add_0_r, Nat.add_1_r.
Qed.

End Runs.

(* ================================================================== *)
(** * Patches *)
(* ================================================================== *)

Section Patches.
Local Open Scope list_scope.




End Patches.

(* ================================================================== *)
(** * The completion timestamp *)
(* ================================================================== *)

Section CompletedAt.
Import Closed.
Local Open Scope list_scope.



End CompletedAt.

(* ================================================================== *)
(** * Mapping over the task collection *)
(* ================================================================== *)

Section Store.
Import Closed.
Local Open Scope list_scope.
Local Open Scope nat_scope.

Lemma advance_00 (w : World) : advance w 0 0 = w.
Proof. now destruct w. Qed.

Lemma tasks_advance (w : World) (a b : nat) : tasks (advance w a b) = tasks w.
Proof. reflexivity. Qed.

Lemma tasks_withTasks (w : World) (ts : list Task.t) :
  tasks (withTasks w ts) = ts.
Proof. reflexivity. Qed.


(** A callback that never throws and only reads the clock and the
    identifier source maps a collection to a collection of the same shape. *)
Lemma mapM_rel (g : Task.t -> M Task.t) (R : Task.t -> Task.t -> Prop) :
  (forall t w, exists t' dt du,
      g t w = (Ok t', advance w dt du) /\ R t t') ->
  forall ts w, exists ts' dt du,
      mapM g ts w = (Ok ts', advance w dt du) /\ Forall2 R ts ts'.
Proof.
  intros Hg ts. induction ts as [| t ts IH]; intros w.
  - exists [], 0, 0. rewrite advance_00. split; [reflexivity | constructor].
  - destruct (Hg t w) as (t' & dt & du & Ht & Rt).
    destruct (IH (advance w dt du)) as (ts' & dt' & du' & Hts & Rts).
    exists (t' :: ts'), (dt' + dt), (du' + du). split.
    + cbn [mapM]. rewrite (bind_ok _ _ _ _ _ Ht).
      rewrite (bind_ok _ _ _ _ _ Hts). unfold ret.
      now rewrite advance_advance.
    + now constructor.
Qed.


Lemma run_updateTask (id : string) (updates : Patch.t) (w : World) :
  exists ts' dt du,
    TaskStore.updateTask id updates w
    = (Ok tt, withTasks (advance w dt du) ts')
    /\ Forall2 (Updated id updates) (tasks w) ts'.
Proof.
  destruct (mapM_rel (TaskStore.updateOne id updates) (Updated id updates))
    with (ts := tasks w) (w := w) as (ts' & dt & du & H & R).
  { intros t w0. destruct (string_dec (Task.id t) id) as [E | E].
    - eexists. eexists. eexists. split; [now apply run_updateOne |].
      right. split; [exact E | now eexists].
    - exists t, 0, 0. rewrite advance_00.
      split; [now apply run_updateOne_other |]. left. now split. }
  exists ts', dt, du. split; [| exact R].
  unfold TaskStore.updateTask, getTasks.
  unfold bind at 1. rewrite (bind_ok _ _ _ _ _ H). reflexivity.
Qed.



End Store.

(* ================================================================== *)
(** * The changelog *)
(* ================================================================== *)

Section Changelog.
Import Closed.
Local Open Scope list_scope.
Local Open Scope nat_scope.














End Changelog.

Section ChangelogEntries.
Import Closed.
Local Open Scope list_scope.
Local Open Scope nat_scope.








End ChangelogEntries.

(* ================================================================== *)
(** * Mutations whose target is absent *)
(* ================================================================== *)

Section AbsentTarget.
Import Closed.
Local Open Scope list_scope.
Local Open Scope nat_scope.









End AbsentTarget.

Section AbsentTargetClaim.
Import Closed.
Local Open Scope list_scope.





End AbsentTargetClaim.

(* ================================================================== *)
(** * The alert scan *)
(* ================================================================== *)

Section Alerts.
Import DateFns Closed AlertEngine.
Local Open Scope list_scope.

Lemma midnight_lt (a b : Z) : (midnight a <? midnight b) = (a <? b).
Proof.
  unfold midnight, msPerDay.
  destruct (a <? b) eqn:E; [apply Z.ltb_lt in E | apply Z.ltb_ge in E].
  - apply Z.ltb_lt. lia.
  - apply Z.ltb_ge. lia.
Qed.

Lemma midnight_eqb (a b : Z) : (midnight a =? midnight b) = (a =? b).
Proof.
  unfold midnight, msPerDay.
  destruct (a =? b) eqn:E; [apply Z.eqb_eq in E | apply Z.eqb_neq in E].
  - apply Z.eqb_eq. lia.
  - apply Z.eqb_neq. lia.
Qed.


Lemma setHours0_parseISO (s : string) :
  setHours0 (parseISO s) = option_map midnight (dayOfString s).
Proof.
  unfold dayOfString, setHours0. now destruct (parseISO s).
Qed.

Lemma midnight_add (d n : Z) : midnight d + n * msPerDay = midnight (d + n).
Proof. unfold midnight. lia. Qed.

Lemma dueSoon_test (today : Z) (ms : Milestone.t) :
  match Milestone.status ms with
  | Achieved | Missed => false
  | _ =>
      let msDate := setHours0 (parseISO (Milestone.targetDate ms)) in
      negb (isBefore msDate (Some (midnight today)))
      && isAfter (addDays (Some (midnight today)) 3) msDate
  end = dueSoon today ms.
Proof.
  unfold dueSoon. cbv zeta. rewrite setHours0_parseISO.
  destruct (Milestone.status ms); try reflexivity;
    destruct (dayOfString (Milestone.targetDate ms)) as [target |];
    cbn [option_map isBefore isAfter addDays negb andb]; try reflexivity;
    rewrite midnight_add, !midnight_lt, <- Z.leb_antisym; reflexivity.
Qed.

Lemma run_scanMilestones (today : Z) (task : Task.t)
    (alerts : list AlertItem.t) :
  scanMilestones (Some (midnight today)) task alerts
  = alerts ++ milestoneAlerts today task.
Proof.
  unfold scanMilestones, milestoneAlerts.
  generalize (Task.milestones task) as mss. intros mss. revert alerts.
  induction mss as [| ms mss IH]; intros alerts.
  - cbn. now rewrite app_nil_r.
  - cbn [fold_left filter].
    match goal with
    | |- fold_left _ _ ?step = _ =>
        assert (E : step = if dueSoon today ms
                           then alerts ++ [milestoneAlert task ms]
                           else alerts)
    end.
    { rewrite <- dueSoon_test. cbv zeta.
      destruct (Milestone.status ms); try reflexivity;
        match goal with
        | |- (if ?c then _ else _) = _ => now destruct c
        end. }
    rewrite E, IH. destruct (dueSoon today ms); [| reflexivity].
    cbn [map]. now rewrite <- app_assoc.
Qed.

Lemma run_isToday (d : Date) (w : World) :
  isToday d w = (Ok (isSameDay d (Some (clock w (ticks w)))), advance w 1 0).
Proof. reflexivity. Qed.

Lemma isSameDay_midnight (due now : Z) :
  isSameDay (Some (midnight due)) (Some now) = (due =? dayOf now).
Proof.
  unfold isSameDay, setHours0. cbn [option_map].
  now rewrite dayOf_midnight, midnight_eqb.
Qed.

(** The due-date step of the scan of one task. *)
Lemma run_dueStep (today : Z) (alerts : list AlertItem.t) (task : Task.t)
    (w : World) :
  let due := setHours0 (parseISO (Task.dueDate task)) in
  (if isBefore due (Some (midnight today))
   then ret (alerts ++ [dueAlert overdue task])
   else
     dueToday <- isToday due ;;
     if dueToday then ret (alerts ++ [dueAlert due_today task])
     else if isCriticalOrHigh (Task.priority task)
             && isAfter (Some (midnight today))
                  (addDays due (- JS.or_number (Task.reminderDays task) 2))
             && negb (isBefore due (Some (midnight today)))
     then ret (alerts ++ [dueAlert at_risk task])
     else ret alerts) w
  = (Ok (alerts ++ dueAlerts today (dayOf (clock w (ticks w))) task),
     advance w
       (match dayOfString (Task.dueDate task) with
        | Some due => if due <? today then 0%nat else 1%nat
        | None => 1%nat
        end) 0).
Proof.
  cbv zeta. rewrite setHours0_parseISO. unfold dueAlerts, dueClass.
  destruct (dayOfString (Task.dueDate task)) as [due |];
    cbn [option_map isBefore].
  - rewrite midnight_lt. destruct (due <? today) eqn:B.
    + unfold ret. now rewrite advance_00.
    + rewrite (bind_ok _ _ _ _ _ (run_isToday _ w)).
      rewrite isSameDay_midnight.
      destruct (due =? dayOf (clock w (ticks w))); [reflexivity |].
      cbn [addDays option_map isAfter].
      rewrite midnight_add, midnight_lt.
      replace (due + - JS.or_number (Task.reminderDays task) 2)
        with (due - JS.or_number (Task.reminderDays task) 2) by lia.
      destruct (isCriticalOrHigh (Task.priority task)
                && (due - JS.or_number (Task.reminderDays task) 2 <? today)
                && negb false);
        unfold ret; [reflexivity | now rewrite app_nil_r].
  - rewrite (bind_ok _ _ _ _ _ (run_isToday _ w)).
    cbn [isSameDay setHours0 option_map addDays isAfter].
    rewrite andb_false_r. cbn [andb]. unfold ret. now rewrite app_nil_r.
Qed.

Lemma run_scanTask (today : Z) (alerts : list AlertItem.t) (task : Task.t)
    (w : World) :
  scanTask (Some (midnight today)) alerts task w
  = (Ok (alerts ++ taskAlerts today (dayOf (clock w (ticks w))) task),
     advance w (reads today task) 0).
Proof.
  assert (Skip : @ret (list AlertItem.t) alerts w
                 = (Ok (alerts ++ []), advance w 0 0))
    by (now rewrite app_nil_r, advance_00).
  pose proof (run_dueStep today alerts task w) as D. cbv zeta in D.
  unfold scanTask, taskAlerts, reads, isActive.
  destruct (Task.status task); try exact Skip;
    rewrite (bind_ok _ _ _ _ _ D); unfold ret;
    now rewrite run_scanMilestones, app_assoc.
Qed.

Lemma run_scan (today : Z) (ts : list Task.t) (w : World) (k : nat)
    (acc : list AlertItem.t) :
  foldM (scanTask (Some (midnight today))) ts acc (advance w k 0)
  = (Ok (acc ++ alertsFrom today w k ts),
     advance w (totalReads today ts + k) 0).
Proof.
  revert k acc. induction ts as [| t ts IH]; intros k acc.
  - cbn. unfold ret. now rewrite app_nil_r.
  - cbn [foldM alertsFrom totalReads].
    rewrite (bind_ok _ _ _ _ _ (run_scanTask today acc t (advance w k 0))).
    rewrite advance_advance, Nat.add_0_l.
    rewrite IH. rewrite app_assoc. f_equal.
    now rewrite Nat.add_assoc.
Qed.

Lemma run_computeAlerts (ts : list Task.t) (w : World) :
  computeAlerts ts w
  = (Ok (alertsFrom (dayOf (clock w (ticks w))) w 1 ts),
     advance w (totalReads (dayOf (clock w (ticks w))) ts + 1) 0).
Proof.
  unfold computeAlerts. rewrite (bind_ok _ _ _ _ _ (run_Date_now w)).
  cbn [setHours0 option_map].
  now rewrite (run_scan _ ts w 1 []).
Qed.

End Alerts.

Section AlertClaims.
Import DateFns Closed AlertEngine.
Local Open Scope list_scope.






End AlertClaims.

Section AlertDeterminism.
Import DateFns Closed AlertEngine.
Local Open Scope list_scope.

Lemma alertsFrom_same_day (today : Z) (w : World) (k : nat)
    (ts : list Task.t) :
  (forall i, dayOf (clock w (i + ticks w)) = today) ->
  alertsFrom today w k ts = alertsOn today ts.
Proof.
  intros H. revert k. induction ts as [| t ts IH]; intros k; [reflexivity |].
  cbn [alertsFrom]. now rewrite H, IH.
Qed.

Lemma append_empty (s : string) : (s ++ "")%string = s.
Proof. induction s as [| c s IH]; [reflexivity |]. cbn. now rewrite IH. Qed.

Lemma idScheme_dueAlert (ty : AlertType) (t : Task.t) :
  ty <> milestone_due_soon -> idScheme (dueAlert ty t).
Proof.
  intros H. split; [| intros E; now elim H].
  intros _. unfold dueAlert, alertId. cbn [AlertItem.id AlertItem.type
                                              AlertItem.taskId].
  now rewrite append_empty.
Qed.

Lemma idScheme_milestoneAlert (t : Task.t) (ms : Milestone.t) :
  idScheme (milestoneAlert t ms).
Proof.
  split; [intros H; now elim H |].
  intros _. exists (Milestone.id ms). split; [reflexivity |].
  intros N. unfold milestoneAlert, alertId.
  cbn [AlertItem.id AlertItem.taskId AlertType_str].
  destruct (Milestone.id ms); [now elim N | reflexivity].
Qed.

Lemma idScheme_taskAlerts (today nowDay : Z) (t : Task.t) :
  Forall idScheme (taskAlerts today nowDay t).
Proof.
  unfold taskAlerts. destruct (isActive t); [| constructor].
  apply Forall_app. split.
  - unfold dueAlerts. destruct (dueClass today nowDay t) as [ty |] eqn:E;
      [| constructor].
    constructor; [| constructor]. apply idScheme_dueAlert.
    unfold dueClass in E.
    destruct (dayOfString (Task.dueDate t)); [| discriminate].
    repeat match type of E with
           | (if ?c then _ else _) = _ => destruct c
           end; inversion E; discriminate.
  - unfold milestoneAlerts. apply Forall_forall. intros a H.
    apply in_map_iff in H. destruct H as (ms & <- & _).
    apply idScheme_milestoneAlert.
Qed.

Lemma idScheme_alertsFrom (today : Z) (w : World) (k : nat)
    (ts : list Task.t) :
  Forall idScheme (alertsFrom today w k ts).
Proof.
  revert k. induction ts as [| t ts IH]; intros k; [constructor |].
  cbn [alertsFrom]. apply Forall_app. split;
    [apply idScheme_taskAlerts | apply IH].
Qed.

(** C8, as the code has it. [computeAlerts] takes the task list only and
    reads the system clock: once to fix the scan's day, and again in every
    [isToday] test. Two scans of the same task list all of whose clock
    readings fall on one and the same local day return the same alert list
    (the list [alertsOn] of that day). Every alert a scan returns has the
    id [{type}:{taskId}] when it is a due-date alert and, when it is a
    milestone alert of a milestone whose id is not the empty string,
    [{type}:{taskId}:{milestoneId}]. *)
Theorem alerts_same_day (ts : list Task.t) (w1 w2 : World) (today : Z) :
  (forall i, dayOf (clock w1 (i + ticks w1)) = today) ->
  (forall i, dayOf (clock w2 (i + ticks w2)) = today) ->
  exists alerts w1' w2',
    computeAlerts ts w1 = (Ok alerts, w1')
    /\ computeAlerts ts w2 = (Ok alerts, w2')
    /\ alerts = alertsOn today ts
    /\ Forall idScheme alerts.
Proof.
  intros H1 H2. exists (alertsOn today ts). eexists. eexists.
  pose proof (H1 0%nat) as T1. pose proof (H2 0%nat) as T2.
  cbn [Nat.add] in T1, T2.
  split; [| split; [| split; [reflexivity |]]].
  - rewrite run_computeAlerts, T1.
    now rewrite (alertsFrom_same_day today w1 1 ts H1).
  - rewrite run_computeAlerts, T2.
    now rewrite (alertsFrom_same_day today w2 1 ts H2).
  - rewrite <- (alertsFrom_same_day today w1 1 ts H1).
    apply idScheme_alertsFrom.
Qed.

(** C8 as stated fails: two scans of the same task list that derive
    "today" from the same instant return different alert lists, because
    [isToday] reads the clock again. *)
Lemma alerts_depend_on_later_readings :
  tasks Sample.lateA = tasks Sample.lateB
  /\ clock Sample.lateA (ticks Sample.lateA)
     = clock Sample.lateB (ticks Sample.lateB)
  /\ fst (computeAlerts (tasks Sample.lateA) Sample.lateA) = Ok []
  /\ fst (computeAlerts (tasks Sample.lateB) Sample.lateB)
     = Ok [dueAlert due_today Sample.dueTomorrow]
  /\ fst (computeAlerts (tasks Sample.lateA) Sample.lateA)
     <> fst (computeAlerts (tasks Sample.lateB) Sample.lateB).
Proof.
  split; [reflexivity |]. split; [reflexivity |].
  split; [vm_compute; reflexivity |].
  split; [vm_compute; reflexivity |].
  vm_compute. discriminate.
Qed.



(** C4, at the failing input: a Critical task due tomorrow whose
    [reminderDays] is set to 0 gets an at-risk alert, although today is not
    after the due date minus zero days. *)
Theorem zero_reminder_at_risk :
  Task.reminderDays Sample.zeroReminder = Some 0
  /\ dayOfString (Task.dueDate Sample.zeroReminder) = Some 19890
  /\ dayOf (clock (Sample.world [Sample.zeroReminder] []) 0) = 19889
  /\ (19890 - 0 <? 19889) = false
  /\ fst (computeAlerts [Sample.zeroReminder]
            (Sample.world [Sample.zeroReminder] []))
     = Ok [dueAlert at_risk Sample.zeroReminder].
Proof. repeat split; vm_compute; reflexivity. Qed.

End AlertDeterminism.

(* ================================================================== *)
(** * The next due date *)
(* ================================================================== *)

Section NextDue.
Import DateFns Closed Recurrence.







End NextDue.

(* ================================================================== *)
(** * The recurrence sweep *)
(* ================================================================== *)

Section Sweep.
Import DateFns Closed Recurrence.
Local Open Scope list_scope.

Lemma truthy_append (a b : string) (c : ascii) :
  JS.truthy_string (a ++ String c b)%string = true.
Proof. now destruct a. Qed.

Lemma nextDueDate_truthy (current pattern : string) (interval : Z)
    (s : string) :
  nextDueDate current pattern interval = inr s -> JS.truthy_string s = true.
Proof.
  unfold nextDueDate.
  match goal with
  | |- format ?next = _ -> _ => destruct next as [ms |]
  end; [| discriminate].
  cbn [format]. intros H. injection H as <-.
  unfold format_day. destruct (civil_from_days (dayOf ms)) as [[y m] d].
  unfold formatCivil. apply truthy_append.
Qed.



Lemma run_generateNextInstance (task : Task.t) (rc : RecurrenceConfig.t)
    (w : World) :
  Task.isRecurring task = true ->
  Task.recurrence task = Some rc ->
  generateNextInstance task w
  = match nextDueDate (Task.dueDate task) (RecurrenceConfig.pattern rc)
            (RecurrenceConfig.interval rc) with
    | inr newDue =>
        (Ok (regenPatch task rc newDue (instant w 0)), advance w 1 0)
    | inl e => (Throw e, w)
    end.
Proof.
  intros R C. unfold generateNextInstance. rewrite R, C.
  destruct (nextDueDate _ _ _) as [e | newDue]; [reflexivity |].
  reflexivity.
Qed.

Lemma eligible_guard (task : Task.t) :
  eligible task = true ->
  Task.isRecurring task = true
  /\ isTrue (Task.isPaused task) = false
  /\ (exists rc, Task.recurrence task = Some rc)
  /\ Task.status task = Complete.
Proof.
  unfold eligible. intros H.
  repeat (apply andb_prop in H; destruct H as [H ?]).
  split; [exact H |]. split; [now apply negb_true_iff |].
  split.
  - destruct (Task.recurrence task) as [rc |]; [now exists rc | discriminate].
  - now destruct (Task.status task).
Qed.

Lemma run_sweepBody_skip (upd : string -> Patch.t -> M unit) (task : Task.t)
    (w : World) :
  eligible task = false -> sweepBody upd task w = (Ok tt, w).
Proof.
  unfold eligible, sweepBody. intros H.
  destruct (Task.isRecurring task); [| reflexivity].
  destruct (isTrue (Task.isPaused task)); [reflexivity |].
  destruct (Task.recurrence task); [| reflexivity].
  cbn in H |- *. now rewrite H.
Qed.

Lemma run_sweepBody (upd : string -> Patch.t -> M unit) (task : Task.t)
    (rc : RecurrenceConfig.t) (w : World) :
  eligible task = true ->
  Task.recurrence task = Some rc ->
  sweepBody upd task w
  = match nextDueDate (Task.dueDate task) (RecurrenceConfig.pattern rc)
            (RecurrenceConfig.interval rc) with
    | inr newDue =>
        upd (Task.id task) (regenPatch task rc newDue (instant w 0))
          (advance w 1 0)
    | inl e => (Throw e, w)
    end.
Proof.
  intros E C. destruct (eligible_guard task E) as (R & P & _ & S).
  unfold sweepBody. rewrite R, P, C, S. cbn [negb orb TaskStatus_eqb].
  unfold bind. rewrite (run_generateNextInstance task rc w R C).
  destruct (nextDueDate _ _ _) as [e | newDue] eqn:N; [reflexivity |].
  unfold hasDueDate. cbn [Patch.dueDate regenPatch fold_left].
  now rewrite (nextDueDate_truthy _ _ _ _ N).
Qed.

Lemma Forall2_In_r {A : Type} (R : A -> A -> Prop) (l l' : list A) (y : A) :
  Forall2 R l l' -> In y l' -> exists x, In x l /\ R x y.
Proof.
  intros F. induction F as [| a b l l' Rab F IH]; intros H; [easy |].
  destruct H as [<- | H].
  - exists a. split; [now left | exact Rab].
  - destruct (IH H) as (x & Hx & Rx). exists x. split; [now right | exact Rx].
Qed.

Lemma status_regenerated (t x : Task.t) (rc : RecurrenceConfig.t)
    (newDue lastCompleted : string) (wi : World) :
  Task.status (updatedTask t (regenPatch x rc newDue lastCompleted) wi)
  = NotStarted.
Proof. reflexivity. Qed.

Lemma eligible_status (t : Task.t) :
  Task.status t <> Complete -> eligible t = false.
Proof.
  intros H. unfold eligible.
  destruct (Task.status t); try (now elim H);
    cbn [TaskStatus_eqb]; apply andb_false_r.
Qed.

Lemma sweep_exhausts (xs : list Task.t) (w w' : World) :
  Pending xs (tasks w) ->
  forEach (sweepBody TaskStore.updateTask) xs w = (Ok tt, w') ->
  forall t, In t (tasks w') -> eligible t = false.
Proof.
  revert w. induction xs as [| x xs IH]; intros w P H t Ht.
  - cbn in H. injection H as <-.
    destruct (eligible t) eqn:E; [| reflexivity].
    now destruct (P t Ht E) as (x & [] & _).
  - cbn [forEach] in H. unfold bind in H.
    destruct (sweepBody TaskStore.updateTask x w) as [[[] | e] w1] eqn:B;
      [| discriminate].
    apply (IH w1); [| exact H | exact Ht].
    destruct (eligible x) eqn:Ex.
    + destruct (eligible_guard x Ex) as (_ & _ & [rc C] & _).
      rewrite (run_sweepBody _ x rc w Ex C) in B.
      destruct (nextDueDate _ _ _) as [e | newDue]; [discriminate |].
      destruct (run_updateTask (Task.id x)
                  (regenPatch x rc newDue (instant w 0)) (advance w 1 0))
        as (ts' & dt & du & U & F).
      rewrite U in B. injection B as <-.
      intros t' Ht' Et'. rewrite tasks_withTasks in Ht'.
      destruct (Forall2_In_r _ _ _ t' F Ht') as (t0 & Ht0 & Up).
      destruct Up as [[Ne ->] | [_ [wi ->]]].
      * rewrite tasks_advance in Ht0.
        destruct (P t0 Ht0 Et') as (x' & [<- | Hx'] & I & E');
          [now elim Ne | now exists x'].
      * rewrite (eligible_status _) in Et'; [discriminate |].
        now rewrite status_regenerated.
    + rewrite (run_sweepBody_skip _ x w Ex) in B. injection B as <-.
      intros t' Ht' Et'.
      destruct (P t' Ht' Et') as (x' & [<- | Hx'] & I & E');
        [congruence | now exists x'].
Qed.

Lemma sweep_idle (upd : string -> Patch.t -> M unit) (xs : list Task.t)
    (w : World) :
  (forall t, In t xs -> eligible t = false) ->
  forEach (sweepBody upd) xs w = (Ok tt, w).
Proof.
  induction xs as [| x xs IH]; intros H; [reflexivity |].
  cbn [forEach].
  rewrite (bind_ok _ _ _ _ _
             (run_sweepBody_skip upd x w (H x (or_introl eq_refl)))).
  apply IH. intros t Ht. apply H. now right.
Qed.

Lemma run_recurrenceCheck (w : World) :
  App.runRecurrenceCheck w
  = forEach (sweepBody TaskStore.updateTask) (tasks w) (advance w 1 0).
Proof. reflexivity. Qed.

(** C2. When a recurrence sweep of the store has returned, no task of the
    store passes the sweep's guard any more (every regenerated task is Not
    Started), so a second sweep returns without calling [updateTask]: it
    reads the clock once and leaves the task collection, and what is
    saved, as the first sweep left them. *)
Theorem sweep_idempotent (w w1 : World) :
  App.runRecurrenceCheck w = (Ok tt, w1) ->
  App.runRecurrenceCheck w1 = (Ok tt, advance w1 1 0)
  /\ tasks (advance w1 1 0) = tasks w1
  /\ savedTasks (advance w1 1 0) = savedTasks w1
  /\ (forall t, In t (tasks w1) ->
                Task.isRecurring t = true ->
                Task.isPaused t <> Some true ->
                Task.recurrence t <> None ->
                Task.status t <> Complete).
Proof.
  intros H. rewrite run_recurrenceCheck in H.
  assert (I : forall t, In t (tasks w1) -> eligible t = false).
  { apply (sweep_exhausts (tasks w) (advance w 1 0) w1); [| exact H].
    intros t Ht Et. exists t. now repeat split. }
  split; [| split; [reflexivity | split; [reflexivity |]]].
  - rewrite run_recurrenceCheck. now apply sweep_idle.
  - intros t Ht R P C S. specialize (I t Ht). unfold eligible in I.
    rewrite R, S in I. cbn [andb TaskStatus_eqb] in I.
    rewrite andb_true_r in I. apply andb_false_iff in I.
    destruct I as [I | I].
    + apply negb_false_iff in I. unfold isTrue in I.
      destruct (Task.isPaused t) as [[|] |]; try discriminate. now elim P.
    + destruct (Task.recurrence t); [discriminate | now elim C].
Qed.

End Sweep.

Section Regeneration.
Import DateFns Closed Recurrence.
Local Open Scope list_scope.










End Regeneration.

(* ================================================================== *)
(** * Due dates that do not parse *)
(* ================================================================== *)

Section InvalidDate.
Import DateFns Closed Recurrence.
Local Open Scope list_scope.







End InvalidDate.

(* ================================================================== *)
(** * Deleting a project *)
(* ================================================================== *)

Section DeleteProject.
Import Closed ProjectDetailPanel.
Local Open Scope list_scope.







End DeleteProject.

(* ================================================================== *)
(** * The statements at concrete inputs *)
(* ================================================================== *)

Section Witnesses.
Import DateFns Closed.
Local Open Scope list_scope.



Lemma first_sweep_returns :
  App.runRecurrenceCheck Sample.w3
  = (Ok tt, snd (App.runRecurrenceCheck Sample.w3)).
Proof.
  rewrite (surjective_pairing (App.runRecurrenceCheck Sample.w3)) at 1.
  apply (f_equal (fun r => (r, snd (App.runRecurrenceCheck Sample.w3)))).
  vm_compute. reflexivity.
Defined.

(** [sweep_idempotent] on the same store. *)
Lemma sweep_idempotent_witness :
  App.runRecurrenceCheck Sample.w3
  = (Ok tt, snd (App.runRecurrenceCheck Sample.w3))
  /\ fst (App.runRecurrenceCheck (snd (App.runRecurrenceCheck Sample.w3)))
     = Ok tt
  /\ tasks (snd (App.runRecurrenceCheck
                   (snd (App.runRecurrenceCheck Sample.w3))))
     = tasks (snd (App.runRecurrenceCheck Sample.w3)).
Proof.
  split; [exact first_sweep_returns |].
  destruct (sweep_idempotent Sample.w3 _ first_sweep_returns)
    as (R & T & _).
  rewrite R. split; [reflexivity | exact T].
Defined.


(** [alerts_same_day] on two worlds whose clocks read different instants
    of 2024-06-15. *)
Lemma alerts_same_day_witness :
  (forall i : nat,
      dayOf (clock Sample.noon (i + ticks Sample.noon)) = 19889)
  /\ (forall i : nat,
         dayOf (clock Sample.evening (i + ticks Sample.evening)) = 19889)
  /\ clock Sample.noon 0 <> clock Sample.evening 4
  /\ fst (AlertEngine.computeAlerts (tasks Sample.noon) Sample.noon)
     = fst (AlertEngine.computeAlerts (tasks Sample.noon) Sample.evening).
Proof.
  assert (H1 : forall i : nat,
             dayOf (clock Sample.noon (i + ticks Sample.noon)) = 19889)
    by (intros i; reflexivity).
  assert (H2 : forall i : nat,
             dayOf (clock Sample.evening (i + ticks Sample.evening)) = 19889)
    by (intros i; reflexivity).
  split; [exact H1 |]. split; [exact H2 |].
  split; [vm_compute; discriminate |].
  destruct (alerts_same_day (tasks Sample.noon) Sample.noon Sample.evening
              19889 H1 H2) as (alerts & w1' & w2' & R1 & R2 & _).
  now rewrite R1, R2.
Defined.









End Witnesses.
